(** * UnrealWriter editor plugin: forwarding facades over the Unreal Editor

    The plugin exposes a handful of editor operations as static functions:
    a confirmation dialog, a file picker, content-browser synchronisation,
    reimport-manager calls, sub-sequence insertion and the ShotBrowserUtility
    extension point.  Every function forwards to an editor subsystem, so the
    development fixes a model of the editor (module [Engine]): the answers
    the editor gives are the fields of a record [Editor], and the requests
    the plugin sends are recorded, in order, in a trace of [HostCall]s.
    Plugin functions run in a state-and-error monad over that trace; a fault
    stands for a C++ run that does not return (null dereference, failed
    check). *)

From Stdlib Require Import ZArith QArith Qround List String Bool Lia Permutation.
From ExtLib Require Import Structures.Monad Structures.MonadState Structures.MonadExc.
From ExtLib Require Import Data.Monads.StateMonad Data.Monads.EitherMonad.
Import ListNotations.
Import MonadNotation.
Local Open Scope string_scope.
Local Open Scope list_scope.
Local Open Scope monad_scope.
Local Open Scope Z_scope.

#[local] Existing Instance Monad_stateT.

(** ** The engine, as the plugin sees it

    Nothing in this module is plugin code.  The types carry the fields the
    plugin's sources read, under the engine's names; the functions follow
    the signatures the sources call them with. *)

Module Engine.

(** A C++ pointer: [None] is [nullptr]. *)
Definition ptr (A : Type) : Type := option A.
Definition nullptr {A : Type} : ptr A := None.

Definition FString : Type := string.

(** [int32]: the value of a 32-bit signed integer after narrowing. *)
Definition int32_of (z : Z) : Z := (z + 2 ^ 31) mod 2 ^ 32 - 2 ^ 31.
Definition INT32_MIN : Z := - 2 ^ 31.
Definition INT32_MAX : Z := 2 ^ 31 - 1.
Definition INDEX_NONE : Z := -1.

(** [FName]: the name identifier built from a string. *)
Inductive FName : Type :=
| FName_of (s : FString).

(** [FText]: display text, either wrapping a string or a format pattern
    applied to the argument that fills its placeholder [{0}]. *)
Inductive FText : Type :=
| FText_FromString (s : FString)
| FText_Format (Fmt : FText) (Arg0 : FText).

Inductive EAppMsgType : Type :=
| MsgOk | MsgYesNo | MsgOkCancel | MsgYesNoCancel | MsgCancelRetryContinue
| MsgYesNoYesAllNoAll | MsgYesNoYesAllNoAllCancel | MsgYesNoYesAll.

Inductive EAppReturnType : Type :=
| No | Yes | YesAll | NoAll | Cancel | Ok | Retry | Continue.

Definition EAppReturnType_eqb (a b : EAppReturnType) : bool :=
  match a, b with
  | No, No | Yes, Yes | YesAll, YesAll | NoAll, NoAll
  | Cancel, Cancel | Ok, Ok | Retry, Retry | Continue, Continue => true
  | _, _ => false
  end.

(** Modelled from the spec: the prompt is engine code; the spec gives an
    Ok/Cancel prompt two outcomes, accept and cancel. *)
Definition OkCancel_response (r : EAppReturnType) : bool :=
  match r with
  | Ok | Cancel => true
  | _ => false
  end.

(** *** Classes and objects *)

(** A reflected class: a root of the hierarchy, or a class with its
    super class. *)
Inductive UClass : Type :=
| RootClass (Name : string)
| SubClass (Name : string) (Super : UClass).

Definition GetSuperClass (c : UClass) : ptr UClass :=
  match c with
  | RootClass _ => nullptr
  | SubClass _ s => Some s
  end.

Fixpoint UClass_eqb (a b : UClass) : bool :=
  match a, b with
  | RootClass n, RootClass n' => String.eqb n n'
  | SubClass n s, SubClass n' s' => String.eqb n n' && UClass_eqb s s'
  | _, _ => false
  end.

(** [c->IsChildOf(base)]: [base] is [c] or one of its super classes. *)
Fixpoint IsChildOf (c base : UClass) : bool :=
  UClass_eqb c base ||
  match c with
  | SubClass _ s => IsChildOf s base
  | RootClass _ => false
  end.

(** An object is the default object of its class, or an instance made
    later; [Serial] tells instances of one class apart. *)
Inductive UObject : Type :=
| ClassDefaultObject (c : UClass)
| NewObject (c : UClass) (Serial : nat).

Definition GetClass (o : UObject) : UClass :=
  match o with
  | ClassDefaultObject c => c
  | NewObject c _ => c
  end.

Definition IsDefaultObject (o : UObject) : bool :=
  match o with
  | ClassDefaultObject _ => true
  | NewObject _ _ => false
  end.

(** Modelled from the spec: [UClass::GetDefaultObject] is engine code; it
    answers with the one default object the class owns. *)
Definition GetDefaultObject (c : UClass) : UObject := ClassDefaultObject c.

(** Modelled from the spec: [Cast<T>] is engine code; it answers with [o]
    itself when [o] is an instance of [T] or of a class below it, and with
    null otherwise. *)
Definition Cast (T : UClass) (o : ptr UObject) : ptr UObject :=
  match o with
  | Some x => if IsChildOf (GetClass x) T then Some x else nullptr
  | None => nullptr
  end.

Definition UObject_StaticClass : UClass := RootClass "Object".

(** *** Sequencer time *)

Record FFrameNumber : Type := { Value : Z }.

Record FFrameRate : Type := { Numerator : Z; Denominator : Z }.

(** A frame time: a whole frame and a sub-frame in [0, 1). *)
Record FFrameTime : Type := { FrameNumber : FFrameNumber; SubFrame : Q }.

Record FQualifiedFrameTime : Type := { Time : FFrameTime; Rate : FFrameRate }.

(** The implicit conversion of a whole number of frames to a frame time. *)
Definition FFrameTime_of_frames (n : Z) : FFrameTime :=
  {| FrameNumber := {| Value := n |}; SubFrame := 0%Q |}.

Definition AsDecimal (r : FFrameRate) : Q :=
  (inject_Z (Numerator r) / inject_Z (Denominator r))%Q.

Definition FFrameTime_AsDecimal (t : FFrameTime) : Q :=
  (inject_Z (Value (FrameNumber t)) + SubFrame t)%Q.

(** Modelled from the spec: the engine's [FQualifiedFrameTime::ConvertTo]
    is not part of the plugin.  The spec describes it as a rate conversion
    by the ratio of the two resolutions, after which the integer
    frame-number component is the truncated value: the time is multiplied
    by destination rate over source rate, the frame number is the whole
    part of the product and the sub-frame is the rest. *)
Definition ConvertTo (t : FQualifiedFrameTime) (DesiredRate : FFrameRate)
  : FFrameTime :=
  let converted :=
    (FFrameTime_AsDecimal (Time t) * AsDecimal DesiredRate
       / AsDecimal (Rate t))%Q in
  {| FrameNumber := {| Value := Qfloor converted |};
     SubFrame := (converted - inject_Z (Qfloor converted))%Q |}.

(** A discrete frame range, lower bound included and upper bound not. *)
Record TRange : Type := { LowerBound : FFrameNumber; UpperBound : FFrameNumber }.

(** Modelled from the spec: [MovieScene::DiscreteSize] is engine code; the
    spec calls its result the playback-range length, the number of frames
    from the lower bound up to the upper bound. *)
Definition DiscreteSize (r : TRange) : Z :=
  int32_of (Value (UpperBound r) - Value (LowerBound r)).

Record UMovieScene : Type :=
  { TickResolution : FFrameRate; PlaybackRange : TRange }.

Definition GetTickResolution (m : UMovieScene) : FFrameRate := TickResolution m.
Definition GetPlaybackRange (m : UMovieScene) : TRange := PlaybackRange m.

Record UMovieSceneSequence : Type :=
  { SequenceName : FString; MovieScene : ptr UMovieScene }.

Definition GetMovieScene (s : UMovieSceneSequence) : ptr UMovieScene :=
  MovieScene s.

Record UMovieSceneSubTrack : Type :=
  { TrackName : FString; OuterMovieScene : ptr UMovieScene }.

(** [SubTrack->GetTypedOuter<UMovieScene>()]. *)
Definition GetTypedOuter_UMovieScene (t : UMovieSceneSubTrack)
  : ptr UMovieScene := OuterMovieScene t.

(** *** Asset registry *)

Record FARFilter : Type :=
  { PackageNames : list FName;
    PackagePaths : list FName;
    ObjectPaths : list FName;
    ClassNames : list FName;
    bRecursivePaths : bool;
    bRecursiveClasses : bool;
    bIncludeOnlyOnDiskAssets : bool }.

(** A default-constructed filter selects on nothing. *)
Definition FARFilter_default : FARFilter :=
  {| PackageNames := []; PackagePaths := []; ObjectPaths := [];
     ClassNames := []; bRecursivePaths := false; bRecursiveClasses := false;
     bIncludeOnlyOnDiskAssets := false |}.

Definition set_PackageNames (f : FARFilter) (names : list FName) : FARFilter :=
  {| PackageNames := names; PackagePaths := PackagePaths f;
     ObjectPaths := ObjectPaths f; ClassNames := ClassNames f;
     bRecursivePaths := bRecursivePaths f;
     bRecursiveClasses := bRecursiveClasses f;
     bIncludeOnlyOnDiskAssets := bIncludeOnlyOnDiskAssets f |}.

Record FAssetData : Type :=
  { PackageName : FName; AssetName : FName }.

(** *** The editor *)

(** The desktop platform service.  What the user does with a file dialog
    opened with the given window, title, default path, default file, type
    filter and flags: [None] when the user cancels, the chosen paths
    otherwise. *)
Record IDesktopPlatform : Type :=
  { FileDialog_UserChoice :
      ptr unit -> FString -> FString -> FString -> FString -> Z ->
      option (list FString) }.

(** Modelled from the spec: the platform's dialog is engine code.  The
    spec gives its outcome as the selected paths, or nothing when the user
    cancels: a cancelled dialog reports failure and leaves the list it was
    given as it was, an accepted one reports success and adds the chosen
    paths to the list. *)
Definition Platform_OpenFileDialog (platform : IDesktopPlatform)
    (ParentWindowHandle : ptr unit)
    (DialogTitle DefaultPath DefaultFile FileTypes : FString) (Flags : Z)
    (OutFilenames : list FString) : bool * list FString :=
  match FileDialog_UserChoice platform ParentWindowHandle DialogTitle
          DefaultPath DefaultFile FileTypes Flags with
  | Some chosen => (true, OutFilenames ++ chosen)
  | None => (false, OutFilenames)
  end.

Record FReimportManager : Type :=
  { Manager_CanReimport : ptr UObject -> bool;
    Manager_Reimport :
      ptr UObject -> bool -> bool -> FString -> ptr unit -> Z ->
      bool -> bool -> bool }.

(** What the running editor answers to the plugin. *)
Record Editor : Type :=
  { MessageDialog_Response : EAppMsgType -> FText -> ptr FText -> EAppReturnType;
    ModuleLoaded : FName -> bool;
    ModuleAvailable : FName -> bool;
    DesktopPlatform : ptr IDesktopPlatform;
    AssetRegistry_GetAssets :
      FARFilter -> list FAssetData -> bool * list FAssetData;
    ReimportManager : FReimportManager;
    LoadedClasses : list UClass }.

(** The requests the plugin sends to the editor. *)
Inductive HostCall : Type :=
| MessageDialog_Open (MsgType : EAppMsgType) (Message : FText)
    (OptTitle : ptr FText)
| DesktopPlatform_OpenFileDialog (ParentWindowHandle : ptr unit)
    (DialogTitle DefaultPath DefaultFile FileTypes : FString) (Flags : Z)
| AssetRegistry_Query (Filter : FARFilter)
| ContentBrowser_SyncBrowserToAssets (AssetDataList : list FAssetData)
| SubTrack_AddSequenceOnRow (Track : UMovieSceneSubTrack)
    (Sequence : ptr UMovieSceneSequence) (StartTime : FFrameNumber)
    (Duration : Z) (RowIndex : Z)
| BlueprintEvent_CreateSequence (Self : UObject) (ShotID : FString)
    (Characters : list FString) (TemplateKwargs : list (FString * FString))
| ReimportManager_UpdateReimportPath (Obj : ptr UObject) (Filename : FString)
    (SourceFileIndex : Z)
| ReimportManager_Reimport (Obj : ptr UObject) (bAskForNewFileIfMissing : bool)
    (bShowNotification : bool) (PreferredReimportFile : FString)
    (SpecifiedReimportHandler : ptr unit) (SourceFileIndex : Z)
    (bForceNewFile : bool) (bAutomated : bool).

Definition Trace : Type := list HostCall.

(** The ways a call fails to return. *)
Inductive Fault : Type :=
| NullDereference
| IndexOutOfRange
| ModuleLoadFailed (Name : FName).

(** A plugin function: it reads and extends the trace, or faults. *)
Definition Exec : Type -> Type := stateT Trace (sum Fault).

Definition run {A : Type} (c : Exec A) (t : Trace) : Fault + A * Trace :=
  runStateT c t.

(** The value a run returns, without the trace. *)
Definition returned {A : Type} (r : Fault + A * Trace) : Fault + A :=
  match r with
  | inl f => inl f
  | inr (a, _) => inr a
  end.

Definition emit (c : HostCall) : Exec unit :=
  t <- get ;;
  put (t ++ [c]).

(** [p->...]: the pointee, or a fault on null. *)
Definition deref {A : Type} (p : ptr A) : Exec A :=
  match p with
  | Some a => ret a
  | None => raise NullDereference
  end.

(** [TArray::Num] and the range-checked [TArray::operator[]]. *)
Definition Num {A : Type} (a : list A) : Z := Z.of_nat (List.length a).

Definition index {A : Type} (a : list A) (i : Z) : Exec A :=
  if (0 <=? i) && (i <? Num a) then
    match nth_error a (Z.to_nat i) with
    | Some x => ret x
    | None => raise IndexOutOfRange
    end
  else raise IndexOutOfRange.

(** [TArray::Add]: append at the end. *)
Definition Add {A : Type} (a : list A) (x : A) : list A := a ++ [x].

(** Modelled from the spec: [GetDerivedClasses] is engine code; the spec
    has it scan the loaded classes for the subclasses of [base].  Here:
    every loaded class strictly below [base], in the order in which the
    editor lists its classes. *)
Definition GetDerivedClasses (ed : Editor) (base : UClass) : list UClass :=
  filter (fun c => IsChildOf c base && negb (UClass_eqb c base))
    (LoadedClasses ed).

(** Modelled from the spec: [FModuleManager::LoadModuleChecked] is engine
    code; it hands out the module when the editor has it, and does not
    return otherwise. *)
Definition LoadModuleChecked (ed : Editor) (Name : FName) : Exec unit :=
  if ModuleAvailable ed Name then ret tt else raise (ModuleLoadFailed Name).

Definition FMessageDialog_Open (ed : Editor) (MsgType : EAppMsgType)
    (Message : FText) (OptTitle : ptr FText) : Exec EAppReturnType :=
  emit (MessageDialog_Open MsgType Message OptTitle) ;;
  ret (MessageDialog_Response ed MsgType Message OptTitle).

(** [desktopPlatform->OpenFileDialog(...)]: the list passed by reference
    comes back as the dialog leaves it; the success flag comes with it. *)
Definition IDesktopPlatform_OpenFileDialog (platform : IDesktopPlatform)
    (ParentWindowHandle : ptr unit)
    (DialogTitle DefaultPath DefaultFile FileTypes : FString) (Flags : Z)
    (OutFilenames : list FString) : Exec (bool * list FString) :=
  emit (DesktopPlatform_OpenFileDialog ParentWindowHandle DialogTitle
          DefaultPath DefaultFile FileTypes Flags) ;;
  ret (Platform_OpenFileDialog platform ParentWindowHandle DialogTitle
         DefaultPath DefaultFile FileTypes Flags OutFilenames).

Definition IAssetRegistry_GetAssets (ed : Editor) (Filter : FARFilter)
    (OutAssetData : list FAssetData) : Exec (bool * list FAssetData) :=
  emit (AssetRegistry_Query Filter) ;;
  ret (AssetRegistry_GetAssets ed Filter OutAssetData).

Definition IContentBrowserSingleton_SyncBrowserToAssets
    (AssetDataList : list FAssetData) : Exec unit :=
  emit (ContentBrowser_SyncBrowserToAssets AssetDataList).

Definition UMovieSceneSubTrack_AddSequenceOnRow (Track : UMovieSceneSubTrack)
    (Sequence : ptr UMovieSceneSequence) (StartTime : FFrameNumber)
    (Duration RowIndex : Z) : Exec unit :=
  emit (SubTrack_AddSequenceOnRow Track Sequence StartTime Duration RowIndex).

Definition FReimportManager_CanReimport (ed : Editor) (Obj : ptr UObject)
  : Exec bool :=
  ret (Manager_CanReimport (ReimportManager ed) Obj).

Definition FReimportManager_UpdateReimportPath (ed : Editor)
    (Obj : ptr UObject) (Filename : FString) (SourceFileIndex : Z)
  : Exec unit :=
  emit (ReimportManager_UpdateReimportPath Obj Filename SourceFileIndex).

Definition FReimportManager_Reimport (ed : Editor) (Obj : ptr UObject)
    (bAskForNewFileIfMissing bShowNotification : bool)
    (PreferredReimportFile : FString) (SpecifiedReimportHandler : ptr unit)
    (SourceFileIndex : Z) (bForceNewFile bAutomated : bool) : Exec bool :=
  emit (ReimportManager_Reimport Obj bAskForNewFileIfMissing bShowNotification
          PreferredReimportFile SpecifiedReimportHandler SourceFileIndex
          bForceNewFile bAutomated) ;;
  ret (Manager_Reimport (ReimportManager ed) Obj bAskForNewFileIfMissing
         bShowNotification PreferredReimportFile SpecifiedReimportHandler
         SourceFileIndex bForceNewFile bAutomated).

End Engine.

Import Engine.

(** ** ShotBrowserUtility.cpp *)

Module UShotBrowserUtility.

Definition StaticClass : UClass :=
  SubClass "ShotBrowserUtility" UObject_StaticClass.

(** [UShotBrowserUtility::Get] (lines 6-16): the default object of the
    last enumerated subclass, or null when none is enumerated. *)
Definition Get (ed : Editor) : Exec (ptr UObject) :=
  let ShotBrowserUtilityClasses := GetDerivedClasses ed StaticClass in
  let NumClasses := Num ShotBrowserUtilityClasses in
  if NumClasses >? 0 then
    c <- index ShotBrowserUtilityClasses (NumClasses - 1) ;;
    ret (Cast StaticClass (Some (GetDefaultObject c)))
  else
    ret nullptr.

(** [UShotBrowserUtility::CreateSequence], a Blueprint-implementable
    event: the call on an object is handed to the editor, which runs the
    implementation the object's class supplies. *)
Definition CreateSequence (Self : UObject) (ShotID : FString)
    (Characters : list FString) (TemplateKwargs : list (FString * FString))
  : Exec unit :=
  emit (BlueprintEvent_CreateSequence Self ShotID Characters TemplateKwargs).

End UShotBrowserUtility.

(** ** UnrealWriterPythonAPI.cpp *)

Module UUnrealWriterPythonAPI.


(** [DisplaySequencerActionsDialog] (lines 18-25). *)
Definition DisplaySequencerActionsDialog (ed : Editor) (SequenceName : FString)
  : Exec bool :=
  let MessageTitle := FText_FromString "UnrealWriter Sequence Assembly" in
  let Message :=
    FText_Format
      (FText_FromString
         "The following actions will be executed to assemble the Unreal sequence: {0}")
      (FText_FromString SequenceName) in
  Response <- FMessageDialog_Open ed MsgOkCancel Message (Some MessageTitle) ;;
  ret (EAppReturnType_eqb Response Ok).


(** [AddSequenceToSubtrack] (lines 33-49).  The two branches of the
    engine-version switch call the same [DiscreteSize], found in two
    namespaces.  [OuterDuration] is declared [int32]. *)
Definition AddSequenceToSubtrack (SubTrack : ptr UMovieSceneSubTrack)
    (Sequence : ptr UMovieSceneSequence) : Exec unit :=
  seq <- deref Sequence ;;
  scene <- deref (GetMovieScene seq) ;;
  let TickResolution := GetTickResolution scene in
  seq <- deref Sequence ;;
  scene <- deref (GetMovieScene seq) ;;
  let SequenceRange :=
    FFrameTime_of_frames (DiscreteSize (GetPlaybackRange scene)) in
  let InnerDuration := {| Time := SequenceRange; Rate := TickResolution |} in
  track <- deref SubTrack ;;
  outer <- deref (GetTypedOuter_UMovieScene track) ;;
  let OuterFrameRate := GetTickResolution outer in
  let OuterDuration :=
    int32_of (Value (FrameNumber (ConvertTo InnerDuration OuterFrameRate))) in
  UMovieSceneSubTrack_AddSequenceOnRow track Sequence {| Value := 0 |}
    OuterDuration INDEX_NONE.

(** [OpenFileDialog] (lines 51-70): the dialog's success flag is not
    read; the list it filled is returned. *)
Definition OpenFileDialog (ed : Editor) (DialogTitle FileTypes : FString)
  : Exec (list FString) :=
  let outFileNames : list FString := [] in
  let desktopPlatform := DesktopPlatform ed in
  match desktopPlatform with
  | Some platform =>
      answer <- IDesktopPlatform_OpenFileDialog platform
                  nullptr       (* ParentWindowHandle *)
                  DialogTitle   (* DialogTitle *)
                  ""            (* DefaultPath *)
                  ""            (* DefaultFile *)
                  FileTypes     (* FileTypes *)
                  0             (* Flags *)
                  outFileNames ;;
      ret (snd answer)
  | None => ret outFileNames
  end.

(** [SyncBrowserToAssets] (lines 72-86). *)
Definition SyncBrowserToAssets (ed : Editor) (Paths : list FString)
  : Exec unit :=
  LoadModuleChecked ed (FName_of "ContentBrowser") ;;
  LoadModuleChecked ed (FName_of "AssetRegistry") ;;
  let pathNames :=
    fold_left (fun pathNames path => Add pathNames (FName_of path)) Paths [] in
  let AssetFilter := set_PackageNames FARFilter_default pathNames in
  let assetData : list FAssetData := [] in
  answer <- IAssetRegistry_GetAssets ed AssetFilter assetData ;;
  IContentBrowserSingleton_SyncBrowserToAssets (snd answer).

(** [UUnrealWriterPythonAPI::CreateSequence] (lines 88-92): the pointer
    the lookup returns is used without a test. *)
Definition CreateSequence (ed : Editor) (ShotID : FString)
    (Characters : list FString) (TemplateKwargs : list (FString * FString))
  : Exec unit :=
  bridge <- UShotBrowserUtility.Get ed ;;
  self <- deref bridge ;;
  UShotBrowserUtility.CreateSequence self ShotID Characters TemplateKwargs.

End UUnrealWriterPythonAPI.

(** ** EditorReimportManagerPythonAPIBPLibrary.cpp *)

Module UEditorReimportHandlerPythonAPI.

(** [CanReimport] (lines 6-9). *)
Definition CanReimport (ed : Editor) (Obj : ptr UObject) : Exec bool :=
  FReimportManager_CanReimport ed Obj.

(** [UpdateReimportPath] (lines 11-14). *)
Definition UpdateReimportPath (ed : Editor) (Obj : ptr UObject)
    (Filename : FString) (SourceFileIndex : Z) : Exec unit :=
  FReimportManager_UpdateReimportPath ed Obj Filename SourceFileIndex.

(** [Reimport] (lines 16-20): the manager's default arguments, except
    the last one, [bAutomated]. *)
Definition Reimport (ed : Editor) (Obj : ptr UObject) (SourceFileIndex : Z)
  : Exec bool :=
  FReimportManager_Reimport ed Obj false true "" nullptr SourceFileIndex
    false true.

End UEditorReimportHandlerPythonAPI.

(** ** Concrete editors and scenes used to exercise the statements *)

Module Sample.

Definition UtilityA : UClass := SubClass "BP_ShotUtilityA" UShotBrowserUtility.StaticClass.
Definition UtilityB : UClass := SubClass "BP_ShotUtilityB" UtilityA.
Definition Unrelated : UClass := SubClass "Actor" UObject_StaticClass.

(** A registry that answers a query with one record per package name. *)
Definition registry (f : FARFilter) (out : list FAssetData)
  : bool * list FAssetData :=
  (true,
   out ++ map (fun n => {| PackageName := n; AssetName := n |})
              (PackageNames f)).

Definition manager : FReimportManager :=
  {| Manager_CanReimport := fun o => match o with Some _ => true | None => false end;
     Manager_Reimport := fun o _ _ _ _ i _ _ =>
       match o with Some _ => (0 <=? i) && (i <? 2) | None => false end |}.

(** A platform whose user picks two files unless the title is empty, in
    which case the user cancels. *)
Definition platform : IDesktopPlatform :=
  {| FileDialog_UserChoice := fun _ title _ _ _ _ =>
       if String.eqb title "" then None
       else Some ["C:/shots/a.fbx"; "C:/shots/b.fbx"] |}.

Definition editor (classes : list UClass) (desktop : ptr IDesktopPlatform)
    (answer : EAppReturnType) : Editor :=
  {| MessageDialog_Response := fun _ _ _ => answer;
     ModuleLoaded := fun _ => false;
     ModuleAvailable := fun _ => true;
     DesktopPlatform := desktop;
     AssetRegistry_GetAssets := registry;
     ReimportManager := manager;
     LoadedClasses := classes |}.

(** No ShotBrowserUtility subclass is loaded. *)
Definition bare : Editor :=
  editor [UObject_StaticClass; UShotBrowserUtility.StaticClass; Unrelated]
    nullptr Cancel.

(** Two subclasses are loaded; the editor lists [UtilityB] last. *)
Definition extended : Editor :=
  editor [UObject_StaticClass; UtilityA; Unrelated;
          UShotBrowserUtility.StaticClass; UtilityB]
    (Some platform) Ok.

Definition scene (rate : Z) (first last : Z) : UMovieScene :=
  {| TickResolution := {| Numerator := rate; Denominator := 1 |};
     PlaybackRange := {| LowerBound := {| Value := first |};
                         UpperBound := {| Value := last |} |} |}.

Definition child (rate length : Z) : UMovieSceneSequence :=
  {| SequenceName := "Shot010"; MovieScene := Some (scene rate 0 length) |}.

Definition parent (rate : Z) : UMovieSceneSubTrack :=
  {| TrackName := "Shots"; OuterMovieScene := Some (scene rate 0 0) |}.

(** Scenes, sequences and tracks at a tick resolution given as a
    fraction. *)
Definition scene_at (rate : FFrameRate) (first last : Z) : UMovieScene :=
  {| TickResolution := rate;
     PlaybackRange := {| LowerBound := {| Value := first |};
                         UpperBound := {| Value := last |} |} |}.

Definition child_at (rate : FFrameRate) (first last : Z)
  : UMovieSceneSequence :=
  {| SequenceName := "Shot020"; MovieScene := Some (scene_at rate first last) |}.

Definition parent_at (rate : FFrameRate) : UMovieSceneSubTrack :=
  {| TrackName := "Shots"; OuterMovieScene := Some (scene_at rate 0 0) |}.

Definition ntsc : FFrameRate := {| Numerator := 30000; Denominator := 1001 |}.
Definition film : FFrameRate := {| Numerator := 24000; Denominator := 1 |}.

(** An editor like [extended] whose asset registry module is missing. *)
Definition without_registry : Editor :=
  {| MessageDialog_Response := MessageDialog_Response extended;
     ModuleLoaded := ModuleLoaded extended;
     ModuleAvailable := fun n =>
       match n with FName_of s => negb (String.eqb s "AssetRegistry") end;
     DesktopPlatform := DesktopPlatform extended;
     AssetRegistry_GetAssets := AssetRegistry_GetAssets extended;
     ReimportManager := ReimportManager extended;
     LoadedClasses := LoadedClasses extended |}.

End Sample.

(** ** Kinds of requests, and functions that only add requests *)

Module Requests.







Definition to_reimport_manager (c : HostCall) : bool :=
  match c with
  | ReimportManager_UpdateReimportPath _ _ _
  | ReimportManager_Reimport _ _ _ _ _ _ _ _ => true
  | _ => false
  end.


End Requests.

(** * Properties *)

(** ** Running the monad *)

Section Run.

Context {A B : Type}.

Lemma run_ret (a : A) (t : Trace) : run (ret a) t = inr (a, t).
Proof. reflexivity. Qed.

Lemma run_bind (c : Exec A) (k : A -> Exec B) (t : Trace) :
  run (bind c k) t =
  match run c t with
  | inl f => inl f
  | inr (a, t') => run (k a) t'
  end.
Proof.
  unfold run. simpl. destruct (runStateT c t) as [f | [a t']]; reflexivity.
Qed.

Lemma run_deref (a : A) (t : Trace) : run (deref (Some a)) t = inr (a, t).
Proof. reflexivity. Qed.

Lemma run_deref_null (t : Trace) :
  run (deref (@nullptr A)) t = inl NullDereference.
Proof. reflexivity. Qed.

End Run.

Lemma run_emit (c : HostCall) (t : Trace) : run (emit c) t = inr (tt, t ++ [c]).
Proof. reflexivity. Qed.

Create Rewrite HintDb run.
#[local] Hint Rewrite @run_bind @run_ret @run_deref @run_deref_null run_emit : run.

Ltac run_step := autorewrite with run; cbn beta iota.

(** ** Classes *)

Lemma UClass_eqb_refl (c : UClass) : UClass_eqb c c = true.
Proof.
  induction c as [n | n s IH]; simpl.
  - apply String.eqb_refl.
  - rewrite String.eqb_refl, IH. reflexivity.
Qed.

Lemma UClass_eqb_eq (a b : UClass) : UClass_eqb a b = true <-> a = b.
Proof.
  split.
  - revert b. induction a as [n | n s IH]; intros [m | m s'] H; simpl in H;
      try discriminate.
    + apply String.eqb_eq in H. now subst.
    + apply andb_true_iff in H. destruct H as [Hn Hs].
      apply String.eqb_eq in Hn. apply IH in Hs. now subst.
  - intros ->. apply UClass_eqb_refl.
Qed.

(** Every class the editor enumerates below [base] is a child of [base]. *)
Lemma GetDerivedClasses_IsChildOf (ed : Editor) (base c : UClass) :
  In c (GetDerivedClasses ed base) -> IsChildOf c base = true.
Proof.
  unfold GetDerivedClasses. intros H. apply filter_In in H.
  destruct H as [_ H]. apply andb_true_iff in H. tauto.
Qed.

(** The base class itself is never listed. *)
Lemma GetDerivedClasses_strict (ed : Editor) (base : UClass) :
  ~ In base (GetDerivedClasses ed base).
Proof.
  unfold GetDerivedClasses. intros H. apply filter_In in H.
  destruct H as [_ H]. rewrite UClass_eqb_refl, andb_false_r in H.
  discriminate.
Qed.

(** The default object of a class passes the cast to any of its bases. *)
Lemma Cast_GetDefaultObject (T c : UClass) :
  IsChildOf c T = true ->
  Cast T (Some (GetDefaultObject c)) = Some (GetDefaultObject c).
Proof. intros H. simpl. rewrite H. reflexivity. Qed.

(** ** Arrays *)

Lemma Num_app_last {A : Type} (l : list A) (x : A) :
  Num (l ++ [x]) - 1 = Z.of_nat (List.length l).
Proof. unfold Num. rewrite length_app. simpl. lia. Qed.

Lemma Num_pos_app_last {A : Type} (l : list A) (x : A) :
  (Num (l ++ [x]) >? 0) = true.
Proof.
  unfold Num. rewrite length_app. simpl. apply Z.gtb_lt. lia.
Qed.

(** Indexing at [Num - 1] reads the last element and never faults. *)
Lemma index_last {A : Type} (l : list A) (x : A) (t : Trace) :
  run (index (l ++ [x]) (Num (l ++ [x]) - 1)) t = inr (x, t).
Proof.
  unfold index. rewrite Num_app_last.
  assert (Hin : (0 <=? Z.of_nat (List.length l)) &&
                (Z.of_nat (List.length l) <? Num (l ++ [x])) = true).
  { apply andb_true_iff. split.
    - apply Z.leb_le. lia.
    - apply Z.ltb_lt. unfold Num. rewrite length_app. simpl. lia. }
  rewrite Hin, Nat2Z.id, nth_error_app2 by lia.
  rewrite Nat.sub_diag. reflexivity.
Qed.

(** ** The extension lookup *)

Lemma Get_none (ed : Editor) (t : Trace) :
  GetDerivedClasses ed UShotBrowserUtility.StaticClass = [] ->
  run (UShotBrowserUtility.Get ed) t = inr (nullptr, t).
Proof. intros H. unfold UShotBrowserUtility.Get. rewrite H. reflexivity. Qed.

Lemma Get_last (ed : Editor) (t : Trace) (cs : list UClass) (c : UClass) :
  GetDerivedClasses ed UShotBrowserUtility.StaticClass = cs ++ [c] ->
  run (UShotBrowserUtility.Get ed) t = inr (Some (GetDefaultObject c), t).
Proof.
  intros H. unfold UShotBrowserUtility.Get.
  assert (Hc : IsChildOf c UShotBrowserUtility.StaticClass = true).
  { apply (GetDerivedClasses_IsChildOf ed). rewrite H.
    apply in_or_app. right. now left. }
  rewrite H, Num_pos_app_last, run_bind, index_last, run_ret.
  rewrite Cast_GetDefaultObject by exact Hc. reflexivity.
Qed.

(** The lookup reads nothing of the editor but its class list, and
    nothing of the trace. *)
Lemma Get_depends_on_classes (ed ed' : Editor) (t t' : Trace) :
  LoadedClasses ed' = LoadedClasses ed ->
  returned (run (UShotBrowserUtility.Get ed') t') =
  returned (run (UShotBrowserUtility.Get ed) t).
Proof.
  intros H.
  assert (Hd : GetDerivedClasses ed' UShotBrowserUtility.StaticClass =
               GetDerivedClasses ed UShotBrowserUtility.StaticClass).
  { unfold GetDerivedClasses. now rewrite H. }
  destruct (GetDerivedClasses ed UShotBrowserUtility.StaticClass)
    as [| x l] eqn:E using rev_ind.
  - rewrite (Get_none ed t E), (Get_none ed' t' Hd). reflexivity.
  - rewrite (Get_last ed t _ _ E), (Get_last ed' t' _ _ Hd). reflexivity.
Qed.

(** C2.  [UShotBrowserUtility::Get], in every state of the editor's class
    list: with no subclass of [UShotBrowserUtility] enumerated it returns
    the null reference; otherwise it returns the default object of the last
    class of the enumerated list; and two editors with the same class list
    get the same answer from every call.  The lookup sends no request to
    the editor. *)
Theorem Get_null_or_last_default_object (ed : Editor) (t : Trace) :
  (GetDerivedClasses ed UShotBrowserUtility.StaticClass = [] ->
   run (UShotBrowserUtility.Get ed) t = inr (nullptr, t)) /\
  (forall cs c,
     GetDerivedClasses ed UShotBrowserUtility.StaticClass = cs ++ [c] ->
     run (UShotBrowserUtility.Get ed) t = inr (Some (GetDefaultObject c), t)) /\
  (forall ed' t',
     LoadedClasses ed' = LoadedClasses ed ->
     returned (run (UShotBrowserUtility.Get ed') t') =
     returned (run (UShotBrowserUtility.Get ed) t)).
Proof.
  split; [| split].
  - apply Get_none.
  - intros cs c. apply Get_last.
  - intros ed' t'. apply Get_depends_on_classes.
Qed.

Lemma Get_null_or_last_default_object_witness :
  run (UShotBrowserUtility.Get Sample.bare) [] = inr (nullptr, []) /\
  run (UShotBrowserUtility.Get Sample.extended) [] =
    inr (Some (ClassDefaultObject Sample.UtilityB), []) /\
  returned (run (UShotBrowserUtility.Get Sample.extended)
              [ContentBrowser_SyncBrowserToAssets []]) =
  returned (run (UShotBrowserUtility.Get Sample.extended) []).
Proof.
  split; [| split].
  - apply (proj1 (Get_null_or_last_default_object Sample.bare [])).
    reflexivity.
  - apply (proj1 (proj2 (Get_null_or_last_default_object Sample.extended []))
             [Sample.UtilityA] Sample.UtilityB).
    reflexivity.
  - apply (proj2 (proj2 (Get_null_or_last_default_object Sample.extended []))
             Sample.extended).
    reflexivity.
Defined.

(** C3.  With no implementation registered, [CreateSequence] is not a
    no-op: the lookup returns the null reference and the call through it
    faults before any request reaches the editor. *)
Theorem CreateSequence_without_implementation_faults (ed : Editor)
    (ShotID : FString) (Characters : list FString)
    (TemplateKwargs : list (FString * FString)) (t : Trace) :
  GetDerivedClasses ed UShotBrowserUtility.StaticClass = [] ->
  run (UShotBrowserUtility.Get ed) t = inr (nullptr, t) /\
  run (UUnrealWriterPythonAPI.CreateSequence ed ShotID Characters
         TemplateKwargs) t = inl NullDereference.
Proof.
  intros H. split.
  - now apply Get_none.
  - unfold UUnrealWriterPythonAPI.CreateSequence.
    rewrite run_bind, (Get_none ed t H), run_bind. reflexivity.
Qed.

Lemma CreateSequence_without_implementation_faults_witness :
  run (UUnrealWriterPythonAPI.CreateSequence Sample.bare "sh010"
         ["hero"] [("template", "default")]) [] = inl NullDereference.
Proof.
  apply (CreateSequence_without_implementation_faults Sample.bare "sh010"
           ["hero"] [("template", "default")] []).
  reflexivity.
Defined.

(** With an implementation registered, [CreateSequence] hands the call to
    the default object of the last enumerated class. *)
Lemma CreateSequence_dispatch (ed : Editor) (cs : list UClass) (c : UClass)
    (ShotID : FString) (Characters : list FString)
    (TemplateKwargs : list (FString * FString)) (t : Trace) :
  GetDerivedClasses ed UShotBrowserUtility.StaticClass = cs ++ [c] ->
  run (UUnrealWriterPythonAPI.CreateSequence ed ShotID Characters
         TemplateKwargs) t =
  inr (tt, t ++ [BlueprintEvent_CreateSequence (GetDefaultObject c) ShotID
                   Characters TemplateKwargs]).
Proof.
  intros H. unfold UUnrealWriterPythonAPI.CreateSequence.
  rewrite run_bind, (Get_last ed t cs c H), run_bind, run_deref.
  reflexivity.
Qed.

(** C10.  With at least one subclass registered, [Get] returns the class
    default object of the selected class, an object that exists already
    and not a new instance; two calls in a row return the same reference
    and send nothing to the editor; so does a call in any editor with the
    same class list; and successive [CreateSequence] calls are all
    dispatched to that one object. *)
Theorem Get_shared_default_object (ed : Editor) (cs : list UClass)
    (c : UClass) (t : Trace) :
  GetDerivedClasses ed UShotBrowserUtility.StaticClass = cs ++ [c] ->
  exists o : UObject,
    o = GetDefaultObject c /\ IsDefaultObject o = true /\ GetClass o = c /\
    run (first <- UShotBrowserUtility.Get ed ;;
         second <- UShotBrowserUtility.Get ed ;;
         ret (first, second)) t = inr ((Some o, Some o), t) /\
    (forall ed' t',
       LoadedClasses ed' = LoadedClasses ed ->
       run (UShotBrowserUtility.Get ed') t' = inr (Some o, t')) /\
    forall ShotID Characters Kwargs ShotID' Characters' Kwargs',
      run (UUnrealWriterPythonAPI.CreateSequence ed ShotID Characters Kwargs ;;
           UUnrealWriterPythonAPI.CreateSequence ed ShotID' Characters' Kwargs')
          t =
      inr (tt, t ++ [BlueprintEvent_CreateSequence o ShotID Characters Kwargs;
                     BlueprintEvent_CreateSequence o ShotID' Characters'
                       Kwargs']).
Proof.
  intros H. exists (GetDefaultObject c). repeat split.
  - rewrite run_bind, (Get_last ed t cs c H), run_bind,
      (Get_last ed t cs c H). reflexivity.
  - intros ed' t' Hsame. apply (Get_last ed' t' cs c).
    unfold GetDerivedClasses in *. now rewrite Hsame.
  - intros. rewrite run_bind, (CreateSequence_dispatch ed cs c) by exact H.
    rewrite (CreateSequence_dispatch ed cs c) by exact H.
    rewrite <- app_assoc. reflexivity.
Qed.

Lemma Get_shared_default_object_witness :
  exists o : UObject,
    o = GetDefaultObject Sample.UtilityB /\ IsDefaultObject o = true /\
    GetClass o = Sample.UtilityB /\
    run (first <- UShotBrowserUtility.Get Sample.extended ;;
         second <- UShotBrowserUtility.Get Sample.extended ;;
         ret (first, second)) [] = inr ((Some o, Some o), []) /\
    (forall ed' t',
       LoadedClasses ed' = LoadedClasses Sample.extended ->
       run (UShotBrowserUtility.Get ed') t' = inr (Some o, t')) /\
    forall ShotID Characters Kwargs ShotID' Characters' Kwargs',
      run (UUnrealWriterPythonAPI.CreateSequence Sample.extended ShotID
             Characters Kwargs ;;
           UUnrealWriterPythonAPI.CreateSequence Sample.extended ShotID'
             Characters' Kwargs') [] =
      inr (tt, [] ++ [BlueprintEvent_CreateSequence o ShotID Characters Kwargs;
                      BlueprintEvent_CreateSequence o ShotID' Characters'
                        Kwargs']).
Proof.
  apply (Get_shared_default_object Sample.extended [Sample.UtilityA]
           Sample.UtilityB []).
  reflexivity.
Defined.

(** ** The confirmation dialog *)

Lemma EAppReturnType_eqb_eq (a b : EAppReturnType) :
  EAppReturnType_eqb a b = true <-> a = b.
Proof. destruct a, b; simpl; split; congruence. Qed.

(** C4.  For every title and every response of the user,
    [DisplaySequencerActionsDialog] opens one Ok/Cancel prompt and returns
    true exactly when the response is Ok; Cancel gives false; and since an
    Ok/Cancel prompt offers no other response, the outcome is either
    true for accept or false for cancel. *)
Theorem DisplaySequencerActionsDialog_true_iff_Ok (ed : Editor)
    (SequenceName : FString) (Response : EAppReturnType) (t : Trace) :
  let Title := FText_FromString "UnrealWriter Sequence Assembly" in
  let Message :=
    FText_Format
      (FText_FromString
         "The following actions will be executed to assemble the Unreal sequence: {0}")
      (FText_FromString SequenceName) in
  MessageDialog_Response ed MsgOkCancel Message (Some Title) = Response ->
  exists result : bool,
    run (UUnrealWriterPythonAPI.DisplaySequencerActionsDialog ed SequenceName)
        t = inr (result, t ++ [MessageDialog_Open MsgOkCancel Message
                                 (Some Title)]) /\
    (result = true <-> Response = Ok) /\
    (Response = Cancel -> result = false) /\
    (OkCancel_response Response = true ->
     (Response = Ok /\ result = true) \/
     (Response = Cancel /\ result = false)).
Proof.
  intros Title Message H. exists (EAppReturnType_eqb Response Ok).
  split; [| split; [| split]].
  - unfold UUnrealWriterPythonAPI.DisplaySequencerActionsDialog,
      FMessageDialog_Open.
    fold Title. fold Message. run_step. rewrite H. reflexivity.
  - apply EAppReturnType_eqb_eq.
  - intros ->. reflexivity.
  - destruct Response; simpl; intros E; try discriminate; auto.
Qed.

Lemma DisplaySequencerActionsDialog_true_iff_Ok_witness :
  exists result : bool,
    run (UUnrealWriterPythonAPI.DisplaySequencerActionsDialog Sample.bare
           "Shot010") [] =
    inr (result,
         [] ++ [MessageDialog_Open MsgOkCancel
                  (FText_Format
                     (FText_FromString
                        "The following actions will be executed to assemble the Unreal sequence: {0}")
                     (FText_FromString "Shot010"))
                  (Some (FText_FromString "UnrealWriter Sequence Assembly"))]) /\
    (result = true <-> Cancel = Ok) /\
    (Cancel = Cancel -> result = false) /\
    (OkCancel_response Cancel = true ->
     (Cancel = Ok /\ result = true) \/ (Cancel = Cancel /\ result = false)).
Proof.
  apply (DisplaySequencerActionsDialog_true_iff_Ok Sample.bare "Shot010"
           Cancel []).
  reflexivity.
Defined.

(** ** The file dialog *)

(** C5.  For every title and type filter: when the desktop platform
    service is unavailable (null handle) [OpenFileDialog] returns the
    empty list and opens no dialog; when the service is there and the user
    cancels the dialog, the result is the empty list as well. *)
Theorem OpenFileDialog_empty_when_unavailable_or_cancelled (ed : Editor)
    (DialogTitle FileTypes : FString) (t : Trace) :
  (DesktopPlatform ed = nullptr ->
   run (UUnrealWriterPythonAPI.OpenFileDialog ed DialogTitle FileTypes) t =
   inr ([], t)) /\
  (forall platform,
     DesktopPlatform ed = Some platform ->
     FileDialog_UserChoice platform nullptr DialogTitle "" "" FileTypes 0 =
       None ->
     run (UUnrealWriterPythonAPI.OpenFileDialog ed DialogTitle FileTypes) t =
     inr ([], t ++ [DesktopPlatform_OpenFileDialog nullptr DialogTitle "" ""
                      FileTypes 0])).
Proof.
  split.
  - intros H. unfold UUnrealWriterPythonAPI.OpenFileDialog. rewrite H.
    reflexivity.
  - intros platform H Hcancel.
    unfold UUnrealWriterPythonAPI.OpenFileDialog,
      IDesktopPlatform_OpenFileDialog, Platform_OpenFileDialog.
    rewrite H. run_step. rewrite Hcancel. reflexivity.
Qed.

Lemma OpenFileDialog_empty_when_unavailable_or_cancelled_witness :
  run (UUnrealWriterPythonAPI.OpenFileDialog Sample.bare "Pick" "*.fbx") [] =
    inr ([], []) /\
  run (UUnrealWriterPythonAPI.OpenFileDialog Sample.extended "" "*.fbx") [] =
    inr ([], [] ++ [DesktopPlatform_OpenFileDialog nullptr "" "" "" "*.fbx" 0]).
Proof.
  split.
  - apply (proj1 (OpenFileDialog_empty_when_unavailable_or_cancelled
                    Sample.bare "Pick" "*.fbx" [])).
    reflexivity.
  - apply (proj2 (OpenFileDialog_empty_when_unavailable_or_cancelled
                    Sample.extended "" "*.fbx" []) Sample.platform);
      reflexivity.
Defined.

(** When the user accepts, the result is the chosen paths, in order. *)
Lemma OpenFileDialog_chosen (ed : Editor) (DialogTitle FileTypes : FString)
    (platform : IDesktopPlatform) (chosen : list FString) (t : Trace) :
  DesktopPlatform ed = Some platform ->
  FileDialog_UserChoice platform nullptr DialogTitle "" "" FileTypes 0 =
    Some chosen ->
  run (UUnrealWriterPythonAPI.OpenFileDialog ed DialogTitle FileTypes) t =
  inr (chosen, t ++ [DesktopPlatform_OpenFileDialog nullptr DialogTitle "" ""
                       FileTypes 0]).
Proof.
  intros H Hc.
  unfold UUnrealWriterPythonAPI.OpenFileDialog,
    IDesktopPlatform_OpenFileDialog, Platform_OpenFileDialog.
  rewrite H. run_step. rewrite Hc. reflexivity.
Qed.

(** ** Content-browser synchronisation *)

(** The loop that fills [pathNames] appends one identifier per path, in
    the order of the paths. *)
Lemma pathNames_loop (Paths : list FString) (init : list FName) :
  fold_left (fun pathNames path => Add pathNames (FName_of path)) Paths init =
  init ++ map FName_of Paths.
Proof.
  revert init. induction Paths as [| p ps IH]; intros init; simpl.
  - now rewrite app_nil_r.
  - rewrite IH. unfold Add. now rewrite <- app_assoc.
Qed.

(** C6.  For every list of package paths, with the content-browser and
    asset-registry modules loaded: the filter of the one query sent to the
    asset registry has as package names the identifiers of the input
    paths, one per path and in the order of the paths (so the same
    multiset), and no other criterion; the browser is then asked to select exactly the
    records that query returned. *)
Theorem SyncBrowserToAssets_filter_and_selection (ed : Editor)
    (Paths : list FString) (t : Trace) :
  ModuleAvailable ed (FName_of "ContentBrowser") = true ->
  ModuleAvailable ed (FName_of "AssetRegistry") = true ->
  exists Filter : FARFilter,
    run (UUnrealWriterPythonAPI.SyncBrowserToAssets ed Paths) t =
    inr (tt, t ++ [AssetRegistry_Query Filter;
                   ContentBrowser_SyncBrowserToAssets
                     (snd (AssetRegistry_GetAssets ed Filter []))]) /\
    PackageNames Filter = map FName_of Paths /\
    Permutation (PackageNames Filter) (map FName_of Paths) /\
    List.length (PackageNames Filter) = List.length Paths /\
    Filter = set_PackageNames FARFilter_default (PackageNames Filter).
Proof.
  intros Hcb Har.
  exists (set_PackageNames FARFilter_default (map FName_of Paths)).
  split; [| split; [| split; [| split]]].
  - unfold UUnrealWriterPythonAPI.SyncBrowserToAssets, LoadModuleChecked,
      IAssetRegistry_GetAssets, IContentBrowserSingleton_SyncBrowserToAssets.
    rewrite Hcb, Har, pathNames_loop. run_step.
    rewrite <- app_assoc. reflexivity.
  - reflexivity.
  - apply Permutation_refl.
  - simpl. apply length_map.
  - reflexivity.
Qed.

Lemma SyncBrowserToAssets_filter_and_selection_witness :
  exists Filter : FARFilter,
    run (UUnrealWriterPythonAPI.SyncBrowserToAssets Sample.extended
           ["/Game/A"; "/Game/B"]) [] =
    inr (tt, [] ++ [AssetRegistry_Query Filter;
                    ContentBrowser_SyncBrowserToAssets
                      (snd (AssetRegistry_GetAssets Sample.extended Filter
                              []))]) /\
    PackageNames Filter = map FName_of ["/Game/A"; "/Game/B"] /\
    Permutation (PackageNames Filter) (map FName_of ["/Game/A"; "/Game/B"]) /\
    List.length (PackageNames Filter) = List.length ["/Game/A"; "/Game/B"] /\
    Filter = set_PackageNames FARFilter_default (PackageNames Filter).
Proof.
  apply (SyncBrowserToAssets_filter_and_selection Sample.extended
           ["/Game/A"; "/Game/B"] []); reflexivity.
Defined.

(** ** Reimport *)

(** C8.  There is one fixed choice of the manager's other arguments (do
    not ask for a new file, show the notification, no preferred file, no
    handler, do not force a new file, automated) such that, for every
    asset and slot index, [Reimport] sends the reimport manager one request
    made of the asset, the index and that choice, and returns the
    manager's answer to that request. *)
Theorem Reimport_forwards_fixed_flags :
  exists (bAskForNewFileIfMissing bShowNotification : bool)
         (PreferredReimportFile : FString)
         (SpecifiedReimportHandler : ptr unit)
         (bForceNewFile bAutomated : bool),
    (bAskForNewFileIfMissing, bShowNotification, PreferredReimportFile,
     SpecifiedReimportHandler, bForceNewFile, bAutomated) =
    (false, true, "", nullptr, false, true) /\
    forall (ed : Editor) (Obj : ptr UObject) (SourceFileIndex : Z) (t : Trace),
      run (UEditorReimportHandlerPythonAPI.Reimport ed Obj SourceFileIndex) t =
      inr (Manager_Reimport (ReimportManager ed) Obj bAskForNewFileIfMissing
             bShowNotification PreferredReimportFile SpecifiedReimportHandler
             SourceFileIndex bForceNewFile bAutomated,
           t ++ [ReimportManager_Reimport Obj bAskForNewFileIfMissing
                   bShowNotification PreferredReimportFile
                   SpecifiedReimportHandler SourceFileIndex bForceNewFile
                   bAutomated]).
Proof.
  exists false, true, "", nullptr, false, true. split.
  - reflexivity.
  - intros ed Obj SourceFileIndex t.
    unfold UEditorReimportHandlerPythonAPI.Reimport, FReimportManager_Reimport.
    run_step. reflexivity.
Qed.

(** C9.  For every asset, path and index, negative and out-of-range ones
    included, [UpdateReimportPath] checks nothing: it returns normally
    after one request to the reimport manager that carries the three
    arguments as they were given, and it does so whatever the state of the
    editor, which it does not consult. *)
Theorem UpdateReimportPath_forwards_unchecked (ed : Editor)
    (Obj : ptr UObject) (Filename : FString) (SourceFileIndex : Z)
    (t : Trace) :
  run (UEditorReimportHandlerPythonAPI.UpdateReimportPath ed Obj Filename
         SourceFileIndex) t =
  inr (tt, t ++ [ReimportManager_UpdateReimportPath Obj Filename
                   SourceFileIndex]) /\
  forall ed' : Editor,
    run (UEditorReimportHandlerPythonAPI.UpdateReimportPath ed' Obj Filename
           SourceFileIndex) t =
    run (UEditorReimportHandlerPythonAPI.UpdateReimportPath ed Obj Filename
           SourceFileIndex) t.
Proof.
  unfold UEditorReimportHandlerPythonAPI.UpdateReimportPath,
    FReimportManager_UpdateReimportPath.
  split.
  - apply run_emit.
  - intros ed'. reflexivity.
Qed.

(** ** Sub-sequence insertion *)

Lemma int32_of_in_range (z : Z) :
  INT32_MIN <= z <= INT32_MAX -> int32_of z = z.
Proof.
  unfold INT32_MIN, INT32_MAX, int32_of. intros H.
  rewrite Z.mod_small; lia.
Qed.

Lemma Qfloor_Qmake (n : Z) (d : positive) : Qfloor (n # d) = n / Zpos d.
Proof. reflexivity. Qed.

(** The frame number of a whole number of frames [D] converted from the
    rate [n1/d1] to the rate [n2/d2] is the floor of [D * (n2/d2) / (n1/d1)]. *)
Lemma ConvertTo_FrameNumber (D n1 d1 n2 d2 : Z) :
  0 < n1 -> 0 < d1 -> 0 < d2 ->
  Value (FrameNumber
           (ConvertTo {| Time := FFrameTime_of_frames D;
                         Rate := {| Numerator := n1; Denominator := d1 |} |}
                      {| Numerator := n2; Denominator := d2 |})) =
  (D * (n2 * d1)) / (d2 * n1).
Proof.
  intros Hn1 Hd1 Hd2.
  destruct n1 as [| n1 | n1]; try lia.
  destruct d1 as [| d1 | d1]; try lia.
  destruct d2 as [| d2 | d2]; try lia.
  unfold ConvertTo, FFrameTime_AsDecimal, AsDecimal, FFrameTime_of_frames.
  cbn [Value FrameNumber Time Rate SubFrame Numerator Denominator].
  change (Z.pos d2 * Z.pos n1) with (Z.pos (d2 * n1)).
  rewrite <- (Qfloor_Qmake (D * (n2 * Z.pos d1)) (d2 * n1)).
  apply Qfloor_comp.
  unfold Qeq, Qdiv, Qmult, Qplus, Qinv, inject_Z. simpl.
  rewrite ?Pos2Z.inj_mul. ring.
Qed.

(** The sub-frame left by the conversion lies in [0, 1): the frame number
    is the truncated value, not the nearest one. *)
Lemma ConvertTo_SubFrame_range (t : FQualifiedFrameTime) (r : FFrameRate) :
  (0 <= SubFrame (ConvertTo t r) /\ SubFrame (ConvertTo t r) < 1)%Q.
Proof.
  unfold ConvertTo. cbn [SubFrame].
  set (q := (FFrameTime_AsDecimal (Time t) * AsDecimal r
               / AsDecimal (Rate t))%Q).
  pose proof (Qfloor_le q) as Hlo. pose proof (Qlt_floor q) as Hhi.
  split.
  - apply (Qplus_le_l _ _ (inject_Z (Qfloor q))). ring_simplify. exact Hlo.
  - apply (Qplus_lt_l _ _ (inject_Z (Qfloor q))). ring_simplify.
    rewrite inject_Z_plus in Hhi. exact Hhi.
Qed.

(** What [AddSequenceToSubtrack] sends to the track, for valid
    references. *)
Lemma AddSequenceToSubtrack_run (track : UMovieSceneSubTrack)
    (seq : UMovieSceneSequence) (scene outer : UMovieScene) (t : Trace) :
  GetMovieScene seq = Some scene ->
  GetTypedOuter_UMovieScene track = Some outer ->
  run (UUnrealWriterPythonAPI.AddSequenceToSubtrack (Some track) (Some seq)) t =
  inr (tt,
       t ++ [SubTrack_AddSequenceOnRow track (Some seq) {| Value := 0 |}
               (int32_of
                  (Value
                     (FrameNumber
                        (ConvertTo
                           {| Time := FFrameTime_of_frames
                                        (DiscreteSize (GetPlaybackRange scene));
                              Rate := GetTickResolution scene |}
                           (GetTickResolution outer)))))
               INDEX_NONE]).
Proof.
  intros Hs Ho. unfold UUnrealWriterPythonAPI.AddSequenceToSubtrack,
    UMovieSceneSubTrack_AddSequenceOnRow.
  run_step. rewrite Hs. run_step. rewrite Hs. run_step. rewrite Ho.
  run_step. reflexivity.
Qed.

(** C1 (as amended).  For a child sequence whose playback range is [D]
    ticks long at tick resolution [R1 > 0], and a parent track at tick
    resolution [R2], [AddSequenceToSubtrack] inserts with the duration
    [floor (D * R2 / R1)] whenever that number is an [int32]; for [D] and
    [R2] not negative this is the quotient truncated toward zero.  In
    particular 100 ticks from 24 to 48 give 200, 100 ticks from 30 to 24
    give 80, and 1 tick from 3 to 2 gives 0. *)
Theorem AddSequenceToSubtrack_duration_floor :
  (forall (track : UMovieSceneSubTrack) (seq : UMovieSceneSequence)
          (scene outer : UMovieScene) (D R1 R2 : Z) (t : Trace),
     GetMovieScene seq = Some scene ->
     GetTypedOuter_UMovieScene track = Some outer ->
     DiscreteSize (GetPlaybackRange scene) = D ->
     GetTickResolution scene = {| Numerator := R1; Denominator := 1 |} ->
     GetTickResolution outer = {| Numerator := R2; Denominator := 1 |} ->
     0 < R1 ->
     INT32_MIN <= D * R2 / R1 <= INT32_MAX ->
     run (UUnrealWriterPythonAPI.AddSequenceToSubtrack (Some track) (Some seq))
         t =
     inr (tt, t ++ [SubTrack_AddSequenceOnRow track (Some seq) {| Value := 0 |}
                      (D * R2 / R1) INDEX_NONE]) /\
     (0 <= D -> 0 <= R2 -> D * R2 / R1 = Z.quot (D * R2) R1)) /\
  run (UUnrealWriterPythonAPI.AddSequenceToSubtrack
         (Some (Sample.parent 48)) (Some (Sample.child 24 100))) [] =
  inr (tt, [SubTrack_AddSequenceOnRow (Sample.parent 48)
              (Some (Sample.child 24 100)) {| Value := 0 |} 200 INDEX_NONE]) /\
  run (UUnrealWriterPythonAPI.AddSequenceToSubtrack
         (Some (Sample.parent 24)) (Some (Sample.child 30 100))) [] =
  inr (tt, [SubTrack_AddSequenceOnRow (Sample.parent 24)
              (Some (Sample.child 30 100)) {| Value := 0 |} 80 INDEX_NONE]) /\
  run (UUnrealWriterPythonAPI.AddSequenceToSubtrack
         (Some (Sample.parent 2)) (Some (Sample.child 3 1))) [] =
  inr (tt, [SubTrack_AddSequenceOnRow (Sample.parent 2)
              (Some (Sample.child 3 1)) {| Value := 0 |} 0 INDEX_NONE]).
Proof.
  split; [| repeat split].
  intros track seq scene outer D R1 R2 t Hs Ho HD HR1 HR2 Hpos Hrange.
  split.
  - rewrite (AddSequenceToSubtrack_run track seq scene outer t Hs Ho).
    rewrite HD, HR1, HR2, ConvertTo_FrameNumber by lia.
    rewrite Z.mul_1_r, Z.mul_1_l, int32_of_in_range by exact Hrange.
    reflexivity.
  - intros HD0 HR0. symmetry. apply Z.quot_div_nonneg; nia.
Qed.

Lemma AddSequenceToSubtrack_duration_floor_witness :
  run (UUnrealWriterPythonAPI.AddSequenceToSubtrack
         (Some (Sample.parent 60000)) (Some (Sample.child 24000 1001))) [] =
  inr (tt, [] ++ [SubTrack_AddSequenceOnRow (Sample.parent 60000)
                    (Some (Sample.child 24000 1001)) {| Value := 0 |}
                    (1001 * 60000 / 24000) INDEX_NONE]) /\
  (0 <= 1001 -> 0 <= 60000 ->
   1001 * 60000 / 24000 = Z.quot (1001 * 60000) 24000).
Proof.
  apply (proj1 AddSequenceToSubtrack_duration_floor (Sample.parent 60000)
           (Sample.child 24000 1001) (Sample.scene 24000 0 1001)
           (Sample.scene 60000 0 0) 1001 24000 60000 []);
    try reflexivity.
  split; vm_compute; discriminate.
Defined.

(** C1, as stated, fails where the converted length leaves the [int32]
    range: 2,000,000,000 ticks at 24,000 per second are 5,000,000,000
    ticks at 60,000 per second, and the duration handed to the track is
    705,032,704. *)
Lemma AddSequenceToSubtrack_duration_overflow :
  run (UUnrealWriterPythonAPI.AddSequenceToSubtrack
         (Some (Sample.parent 60000)) (Some (Sample.child 24000 2000000000)))
      [] =
  inr (tt, [SubTrack_AddSequenceOnRow (Sample.parent 60000)
              (Some (Sample.child 24000 2000000000)) {| Value := 0 |}
              705032704 INDEX_NONE]) /\
  DiscreteSize (GetPlaybackRange (Sample.scene 24000 0 2000000000)) =
    2000000000 /\
  2000000000 * 60000 / 24000 = 5000000000 /\
  705032704 <> 2000000000 * 60000 / 24000.
Proof.
  repeat split; try reflexivity. vm_compute. discriminate.
Qed.

(** C7 (as amended).  For every parent track and child sequence, each
    with its movie scene, at tick resolutions [n2/d2] and [n1/d1] with
    [n1], [d1] and [d2] positive: when the playback-range length [D] of
    the child, converted to the parent's resolution, is an [int32],
    [AddSequenceToSubtrack] sends the track one request, which adds the
    child at frame number 0, on the row [INDEX_NONE] (the row is left to
    the track), for exactly the converted duration, the frame number
    [floor (D * n2 * d1 / (d2 * n1))] of the converted time. *)
Theorem AddSequenceToSubtrack_at_zero_for_converted_duration
    (track : UMovieSceneSubTrack) (seq : UMovieSceneSequence)
    (scene outer : UMovieScene) (D n1 d1 n2 d2 : Z) (t : Trace) :
  GetMovieScene seq = Some scene ->
  GetTypedOuter_UMovieScene track = Some outer ->
  DiscreteSize (GetPlaybackRange scene) = D ->
  GetTickResolution scene = {| Numerator := n1; Denominator := d1 |} ->
  GetTickResolution outer = {| Numerator := n2; Denominator := d2 |} ->
  0 < n1 -> 0 < d1 -> 0 < d2 ->
  INT32_MIN <= D * (n2 * d1) / (d2 * n1) <= INT32_MAX ->
  exists Duration : Z,
    run (UUnrealWriterPythonAPI.AddSequenceToSubtrack (Some track) (Some seq))
        t =
    inr (tt, t ++ [SubTrack_AddSequenceOnRow track (Some seq) {| Value := 0 |}
                     Duration INDEX_NONE]) /\
    Duration =
      Value (FrameNumber
               (ConvertTo
                  {| Time := FFrameTime_of_frames D;
                     Rate := {| Numerator := n1; Denominator := d1 |} |}
                  {| Numerator := n2; Denominator := d2 |})) /\
    Duration = D * (n2 * d1) / (d2 * n1) /\
    INDEX_NONE = -1.
Proof.
  intros Hs Ho HD Hr1 Hr2 Hn1 Hd1 Hd2 Hrange.
  exists (D * (n2 * d1) / (d2 * n1)). repeat split.
  - rewrite (AddSequenceToSubtrack_run track seq scene outer t Hs Ho).
    rewrite HD, Hr1, Hr2, ConvertTo_FrameNumber by assumption.
    rewrite int32_of_in_range by exact Hrange. reflexivity.
  - symmetry. now apply ConvertTo_FrameNumber.
Qed.

Lemma AddSequenceToSubtrack_at_zero_for_converted_duration_witness :
  exists Duration : Z,
    run (UUnrealWriterPythonAPI.AddSequenceToSubtrack
           (Some (Sample.parent_at Sample.film))
           (Some (Sample.child_at Sample.ntsc 500 1501))) [] =
    inr (tt, [] ++ [SubTrack_AddSequenceOnRow (Sample.parent_at Sample.film)
                      (Some (Sample.child_at Sample.ntsc 500 1501))
                      {| Value := 0 |} Duration INDEX_NONE]) /\
    Duration =
      Value (FrameNumber
               (ConvertTo
                  {| Time := FFrameTime_of_frames 1001;
                     Rate := {| Numerator := 30000; Denominator := 1001 |} |}
                  {| Numerator := 24000; Denominator := 1 |})) /\
    Duration = 1001 * (24000 * 1001) / (1 * 30000) /\
    INDEX_NONE = -1.
Proof.
  apply (AddSequenceToSubtrack_at_zero_for_converted_duration
           (Sample.parent_at Sample.film)
           (Sample.child_at Sample.ntsc 500 1501)
           (Sample.scene_at Sample.ntsc 500 1501)
           (Sample.scene_at Sample.film 0 0) 1001 30000 1001 24000 1 []);
    try reflexivity.
  split; vm_compute; discriminate.
Defined.

(** C7, as stated, fails where the converted duration is no [int32]: a
    child of 1,500,000,000 ticks at 24,000 per second converts to
    3,000,000,000 ticks at 48,000 per second, and the request sent to the
    track spans -1,294,967,296 ticks. *)
Lemma AddSequenceToSubtrack_span_differs_from_converted_duration :
  run (UUnrealWriterPythonAPI.AddSequenceToSubtrack
         (Some (Sample.parent 48000)) (Some (Sample.child 24000 1500000000)))
      [] =
  inr (tt, [SubTrack_AddSequenceOnRow (Sample.parent 48000)
              (Some (Sample.child 24000 1500000000)) {| Value := 0 |}
              (-1294967296) INDEX_NONE]) /\
  Value (FrameNumber
           (ConvertTo
              {| Time := FFrameTime_of_frames
                           (DiscreteSize
                              (GetPlaybackRange
                                 (Sample.scene 24000 0 1500000000)));
                 Rate := GetTickResolution (Sample.scene 24000 0 1500000000) |}
              (GetTickResolution (Sample.scene 48000 0 0)))) = 3000000000 /\
  -1294967296 <> 3000000000.
Proof.
  repeat split; try reflexivity. discriminate.
Qed.

(** ** Further properties of the plugin *)

(** X1.  The lookup always returns and sends the editor nothing: the index
    [NumClasses - 1] it reads is in range whenever it is read. *)
Theorem Get_returns_and_sends_nothing (ed : Editor) (t : Trace) :
  exists bridge : ptr UObject,
    run (UShotBrowserUtility.Get ed) t = inr (bridge, t).
Proof.
  destruct (GetDerivedClasses ed UShotBrowserUtility.StaticClass)
    as [| c cs _] eqn:E using rev_ind.
  - exists nullptr. now apply Get_none.
  - exists (Some (GetDefaultObject c)). now apply (Get_last ed t cs c).
Qed.

(** X2.  When the platform service is there and the user accepts the
    dialog, [OpenFileDialog] returns the chosen paths, in the dialog's order; the
    dialog was opened with no parent window, empty default path and file,
    and flags 0. *)
Theorem OpenFileDialog_returns_chosen_paths (ed : Editor)
    (DialogTitle FileTypes : FString) (platform : IDesktopPlatform)
    (chosen : list FString) (t : Trace) :
  DesktopPlatform ed = Some platform ->
  FileDialog_UserChoice platform nullptr DialogTitle "" "" FileTypes 0 =
    Some chosen ->
  run (UUnrealWriterPythonAPI.OpenFileDialog ed DialogTitle FileTypes) t =
  inr (chosen, t ++ [DesktopPlatform_OpenFileDialog nullptr DialogTitle "" ""
                       FileTypes 0]).
Proof. apply OpenFileDialog_chosen. Qed.

Lemma OpenFileDialog_returns_chosen_paths_witness :
  run (UUnrealWriterPythonAPI.OpenFileDialog Sample.extended "Pick" "*.fbx")
      [] =
  inr (["C:/shots/a.fbx"; "C:/shots/b.fbx"],
       [] ++ [DesktopPlatform_OpenFileDialog nullptr "Pick" "" "" "*.fbx" 0]).
Proof.
  apply (OpenFileDialog_returns_chosen_paths Sample.extended "Pick" "*.fbx"
           Sample.platform ["C:/shots/a.fbx"; "C:/shots/b.fbx"] []);
    reflexivity.
Defined.

(** X3.  [AddSequenceToSubtrack] validates none of its references: a null
    sequence, a sequence without a movie scene, a null track, or a track
    outside any movie scene makes it fault, and then the track receives no
    request. *)
Theorem AddSequenceToSubtrack_null_references (t : Trace) :
  (forall SubTrack,
     run (UUnrealWriterPythonAPI.AddSequenceToSubtrack SubTrack nullptr) t =
     inl NullDereference) /\
  (forall SubTrack name,
     run (UUnrealWriterPythonAPI.AddSequenceToSubtrack SubTrack
            (Some {| SequenceName := name; MovieScene := nullptr |})) t =
     inl NullDereference) /\
  (forall name scene,
     run (UUnrealWriterPythonAPI.AddSequenceToSubtrack nullptr
            (Some {| SequenceName := name; MovieScene := Some scene |})) t =
     inl NullDereference) /\
  (forall name scene track,
     run (UUnrealWriterPythonAPI.AddSequenceToSubtrack
            (Some {| TrackName := track; OuterMovieScene := nullptr |})
            (Some {| SequenceName := name; MovieScene := Some scene |})) t =
     inl NullDereference).
Proof. repeat split; intros; reflexivity. Qed.

(** ** Which class the lookup selects *)

Lemma strict_subclass_iff (c base : UClass) :
  IsChildOf c base && negb (UClass_eqb c base) = true <->
  IsChildOf c base = true /\ c <> base.
Proof.
  rewrite andb_true_iff, negb_true_iff. split; intros [H1 H2]; split; trivial.
  - intros E. apply UClass_eqb_eq in E. congruence.
  - destruct (UClass_eqb c base) eqn:E; trivial.
    apply UClass_eqb_eq in E. contradiction.
Qed.

Lemma In_GetDerivedClasses (ed : Editor) (base c : UClass) :
  In c (GetDerivedClasses ed base) <->
  In c (LoadedClasses ed) /\ IsChildOf c base = true /\ c <> base.
Proof.
  unfold GetDerivedClasses. rewrite filter_In, strict_subclass_iff. tauto.
Qed.

Lemma GetDerivedClasses_nil_iff (ed : Editor) (base : UClass) :
  GetDerivedClasses ed base = [] <->
  forall c, In c (LoadedClasses ed) -> IsChildOf c base = true -> c = base.
Proof.
  split.
  - intros H c Hin Hc. destruct (UClass_eqb c base) eqn:E.
    + now apply UClass_eqb_eq.
    + assert (Hd : In c (GetDerivedClasses ed base)).
      { apply In_GetDerivedClasses. repeat split; trivial.
        intros ->. rewrite UClass_eqb_refl in E. discriminate. }
      rewrite H in Hd. contradiction.
  - intros H. destruct (GetDerivedClasses ed base) as [| c l] eqn:E; trivial.
    assert (Hd : In c (GetDerivedClasses ed base)) by (rewrite E; now left).
    apply In_GetDerivedClasses in Hd. destruct Hd as (Hin & Hc & Hne).
    now specialize (H c Hin Hc).
Qed.

(** The lookup reads the class list only through the enumeration of the
    subclasses. *)
Lemma Get_depends_on_derived (ed ed' : Editor) (t t' : Trace) :
  GetDerivedClasses ed' UShotBrowserUtility.StaticClass =
  GetDerivedClasses ed UShotBrowserUtility.StaticClass ->
  returned (run (UShotBrowserUtility.Get ed') t') =
  returned (run (UShotBrowserUtility.Get ed) t).
Proof.
  intros Hd.
  destruct (GetDerivedClasses ed UShotBrowserUtility.StaticClass)
    as [| x l] eqn:E using rev_ind.
  - rewrite (Get_none ed t E), (Get_none ed' t' Hd). reflexivity.
  - rewrite (Get_last ed t _ _ E), (Get_last ed' t' _ _ Hd). reflexivity.
Qed.

(** X4.  Whatever object [Get] returns is the class default object of a
    class the editor has loaded that lies strictly below
    [UShotBrowserUtility]: never the base class itself, never a class
    outside its hierarchy, never an object made for the call. *)
Theorem Get_returns_default_object_of_loaded_subclass (ed : Editor)
    (t t' : Trace) (o : UObject) :
  run (UShotBrowserUtility.Get ed) t = inr (Some o, t') ->
  exists c : UClass,
    o = GetDefaultObject c /\ IsDefaultObject o = true /\
    In c (LoadedClasses ed) /\
    IsChildOf c UShotBrowserUtility.StaticClass = true /\
    c <> UShotBrowserUtility.StaticClass /\ t' = t.
Proof.
  intros H.
  destruct (GetDerivedClasses ed UShotBrowserUtility.StaticClass)
    as [| c cs _] eqn:E using rev_ind.
  - rewrite (Get_none ed t E) in H. discriminate.
  - rewrite (Get_last ed t cs c E) in H. injection H as <- <-.
    assert (Hd : In c (GetDerivedClasses ed UShotBrowserUtility.StaticClass)).
    { rewrite E. apply in_or_app. right. now left. }
    apply In_GetDerivedClasses in Hd. destruct Hd as (Hin & Hc & Hne).
    exists c. repeat split; trivial.
Qed.

Lemma Get_returns_default_object_of_loaded_subclass_witness :
  exists c : UClass,
    ClassDefaultObject Sample.UtilityB = GetDefaultObject c /\
    IsDefaultObject (ClassDefaultObject Sample.UtilityB) = true /\
    In c (LoadedClasses Sample.extended) /\
    IsChildOf c UShotBrowserUtility.StaticClass = true /\
    c <> UShotBrowserUtility.StaticClass /\ @nil HostCall = [].
Proof.
  apply (Get_returns_default_object_of_loaded_subclass Sample.extended [] []
           (ClassDefaultObject Sample.UtilityB)).
  reflexivity.
Defined.

(** X5.  [Get] returns the null reference exactly when no loaded class
    lies strictly below [UShotBrowserUtility]; the base class alone, or
    classes of other hierarchies, do not count as implementations. *)
Theorem Get_null_iff_no_subclass_loaded (ed : Editor) (t : Trace) :
  run (UShotBrowserUtility.Get ed) t = inr (nullptr, t) <->
  (forall c, In c (LoadedClasses ed) ->
             IsChildOf c UShotBrowserUtility.StaticClass = true ->
             c = UShotBrowserUtility.StaticClass).
Proof.
  rewrite <- GetDerivedClasses_nil_iff. split.
  - intros H.
    destruct (GetDerivedClasses ed UShotBrowserUtility.StaticClass)
      as [| c cs _] eqn:E using rev_ind; trivial.
    rewrite (Get_last ed t cs c E) in H. discriminate.
  - apply Get_none.
Qed.

(** X6.  [CreateSequence] returns normally exactly when some loaded class
    lies strictly below [UShotBrowserUtility]; in every other state of
    the class list it fails on the null reference. *)
Theorem CreateSequence_returns_iff_subclass_loaded (ed : Editor)
    (ShotID : FString) (Characters : list FString)
    (TemplateKwargs : list (FString * FString)) (t : Trace) :
  ((exists t' : Trace,
      run (UUnrealWriterPythonAPI.CreateSequence ed ShotID Characters
             TemplateKwargs) t = inr (tt, t')) <->
   (exists c, In c (LoadedClasses ed) /\
              IsChildOf c UShotBrowserUtility.StaticClass = true /\
              c <> UShotBrowserUtility.StaticClass)) /\
  ((forall c, In c (LoadedClasses ed) ->
              IsChildOf c UShotBrowserUtility.StaticClass = true ->
              c = UShotBrowserUtility.StaticClass) ->
   run (UUnrealWriterPythonAPI.CreateSequence ed ShotID Characters
          TemplateKwargs) t = inl NullDereference).
Proof.
  assert (Hnil :
    GetDerivedClasses ed UShotBrowserUtility.StaticClass = [] ->
    run (UUnrealWriterPythonAPI.CreateSequence ed ShotID Characters
           TemplateKwargs) t = inl NullDereference).
  { intros E. unfold UUnrealWriterPythonAPI.CreateSequence.
    rewrite run_bind, (Get_none ed t E), run_bind. reflexivity. }
  split; [split |].
  - intros [t' H].
    destruct (GetDerivedClasses ed UShotBrowserUtility.StaticClass)
      as [| c cs _] eqn:E using rev_ind.
    + rewrite (Hnil eq_refl) in H. discriminate.
    + exists c. apply In_GetDerivedClasses. rewrite E.
      apply in_or_app. right. now left.
  - intros (c & Hc).
    apply In_GetDerivedClasses in Hc.
    destruct (GetDerivedClasses ed UShotBrowserUtility.StaticClass)
      as [| c' cs _] eqn:E using rev_ind; [contradiction |].
    eexists. apply (CreateSequence_dispatch ed cs c'). exact E.
  - intros H. apply Hnil. now apply GetDerivedClasses_nil_iff.
Qed.

Lemma CreateSequence_returns_iff_subclass_loaded_witness :
  run (UUnrealWriterPythonAPI.CreateSequence Sample.bare "sh020" [] []) [] =
  inl NullDereference.
Proof.
  apply (proj2 (CreateSequence_returns_iff_subclass_loaded Sample.bare
                  "sh020" [] [] [])).
  intros c Hin.
  repeat (destruct Hin as [<- | Hin]; [vm_compute; intros E;
                                       first [reflexivity | discriminate] |]).
  contradiction.
Defined.

(** X8.  Classes that are not strictly below [UShotBrowserUtility] have
    no influence on the lookup: listing such a class anywhere in the
    editor's class list, or dropping it, leaves the result of [Get]
    unchanged. *)
Theorem Get_ignores_other_classes (ed ed' : Editor)
    (before after : list UClass) (u : UClass) (t t' : Trace) :
  LoadedClasses ed = before ++ u :: after ->
  LoadedClasses ed' = before ++ after ->
  IsChildOf u UShotBrowserUtility.StaticClass = false \/
  u = UShotBrowserUtility.StaticClass ->
  returned (run (UShotBrowserUtility.Get ed) t) =
  returned (run (UShotBrowserUtility.Get ed') t').
Proof.
  intros Hl Hl' Hu. apply Get_depends_on_derived.
  unfold GetDerivedClasses. rewrite Hl, Hl', !filter_app. simpl.
  assert (Hf : IsChildOf u UShotBrowserUtility.StaticClass &&
               negb (UClass_eqb u UShotBrowserUtility.StaticClass) = false).
  { destruct Hu as [Hu | ->].
    - now rewrite Hu.
    - rewrite UClass_eqb_refl. apply andb_false_r. }
  now rewrite Hf.
Qed.

Lemma Get_ignores_other_classes_witness :
  returned (run (UShotBrowserUtility.Get Sample.extended) []) =
  returned (run (UShotBrowserUtility.Get
                   (Sample.editor
                      [UObject_StaticClass; Sample.UtilityA;
                       UShotBrowserUtility.StaticClass; Sample.UtilityB]
                      nullptr Cancel)) []).
Proof.
  apply (Get_ignores_other_classes Sample.extended
           (Sample.editor
              [UObject_StaticClass; Sample.UtilityA;
               UShotBrowserUtility.StaticClass; Sample.UtilityB]
              nullptr Cancel)
           [UObject_StaticClass; Sample.UtilityA]
           [UShotBrowserUtility.StaticClass; Sample.UtilityB]
           Sample.Unrelated [] []).
  - reflexivity.
  - reflexivity.
  - left. reflexivity.
Defined.

(** ** What an empty file list tells *)

(** X9.  [OpenFileDialog] returns the empty list exactly in three cases:
    the platform service is missing, the user cancelled the dialog, or the
    user accepted it with no file chosen; the success flag of the dialog
    is dropped, so the caller cannot tell these cases apart. *)
Theorem OpenFileDialog_empty_iff (ed : Editor)
    (DialogTitle FileTypes : FString) (t : Trace) :
  returned (run (UUnrealWriterPythonAPI.OpenFileDialog ed DialogTitle
                   FileTypes) t) = inr [] <->
  DesktopPlatform ed = nullptr \/
  exists platform,
    DesktopPlatform ed = Some platform /\
    (FileDialog_UserChoice platform nullptr DialogTitle "" "" FileTypes 0 =
       None \/
     FileDialog_UserChoice platform nullptr DialogTitle "" "" FileTypes 0 =
       Some []).
Proof.
  destruct (DesktopPlatform ed) as [platform |] eqn:Ep.
  - destruct (FileDialog_UserChoice platform nullptr DialogTitle "" ""
                FileTypes 0) as [chosen |] eqn:Ec.
    + rewrite (OpenFileDialog_chosen ed DialogTitle FileTypes platform chosen
                 t Ep Ec).
      simpl. split.
      * intros H. injection H as ->. right. exists platform.
        rewrite Ec. auto.
      * intros [H | (p & Hp & [H | H])]; try discriminate;
          injection Hp as <-; rewrite Ec in H;
          [discriminate | injection H as ->; reflexivity].
    + unfold UUnrealWriterPythonAPI.OpenFileDialog,
        IDesktopPlatform_OpenFileDialog, Platform_OpenFileDialog.
      rewrite Ep. run_step. rewrite Ec. simpl. split; trivial.
      intros _. right. exists platform. rewrite Ec. auto.
  - unfold UUnrealWriterPythonAPI.OpenFileDialog. rewrite Ep. simpl.
    split; auto.
Qed.

(** ** Module loading *)

(** X10.  [SyncBrowserToAssets] returns normally exactly when both the
    content-browser and the asset-registry module load.  The content
    browser is loaded first: when it is missing the call fails on it,
    otherwise a missing asset registry makes it fail. *)
Theorem SyncBrowserToAssets_returns_iff_modules_load (ed : Editor)
    (Paths : list FString) (t : Trace) :
  ((exists t' : Trace,
      run (UUnrealWriterPythonAPI.SyncBrowserToAssets ed Paths) t =
      inr (tt, t')) <->
   ModuleAvailable ed (FName_of "ContentBrowser") = true /\
   ModuleAvailable ed (FName_of "AssetRegistry") = true) /\
  (ModuleAvailable ed (FName_of "ContentBrowser") = false ->
   run (UUnrealWriterPythonAPI.SyncBrowserToAssets ed Paths) t =
   inl (ModuleLoadFailed (FName_of "ContentBrowser"))) /\
  (ModuleAvailable ed (FName_of "ContentBrowser") = true ->
   ModuleAvailable ed (FName_of "AssetRegistry") = false ->
   run (UUnrealWriterPythonAPI.SyncBrowserToAssets ed Paths) t =
   inl (ModuleLoadFailed (FName_of "AssetRegistry"))).
Proof.
  unfold UUnrealWriterPythonAPI.SyncBrowserToAssets, LoadModuleChecked,
    IAssetRegistry_GetAssets, IContentBrowserSingleton_SyncBrowserToAssets.
  destruct (ModuleAvailable ed (FName_of "ContentBrowser")) eqn:Ecb.
  - destruct (ModuleAvailable ed (FName_of "AssetRegistry")) eqn:Ear;
      run_step.
    + split; [split | split]; try discriminate; auto.
      intros _. eexists. reflexivity.
    + split; [split | split]; try discriminate; auto.
      * intros [t' H]. discriminate.
      * intros [_ H]. discriminate.
  - run_step. split; [split | split]; try discriminate; auto.
    + intros [t' H]. discriminate.
    + intros [H _]. discriminate.
Qed.

Lemma SyncBrowserToAssets_returns_iff_modules_load_witness :
  run (UUnrealWriterPythonAPI.SyncBrowserToAssets Sample.without_registry
         ["/Game/A"]) [] =
  inl (ModuleLoadFailed (FName_of "AssetRegistry")).
Proof.
  apply (proj2 (proj2 (SyncBrowserToAssets_returns_iff_modules_load
                         Sample.without_registry ["/Game/A"] [])));
    reflexivity.
Defined.

(** ** More on the inserted duration *)

Lemma int32_of_range (z : Z) : INT32_MIN <= int32_of z <= INT32_MAX.
Proof.
  unfold INT32_MIN, INT32_MAX, int32_of.
  pose proof (Z.mod_pos_bound (z + 2 ^ 31) (2 ^ 32) eq_refl). lia.
Qed.

Lemma int32_of_DiscreteSize (r : TRange) :
  int32_of (DiscreteSize r) = DiscreteSize r.
Proof. apply int32_of_in_range. unfold DiscreteSize. apply int32_of_range. Qed.

(** X11.  When the parent track and the child sequence have the same tick
    resolution, the child is inserted with exactly its playback-range
    length: nothing is lost in the conversion. *)
Theorem AddSequenceToSubtrack_same_resolution_keeps_length
    (track : UMovieSceneSubTrack) (seq : UMovieSceneSequence)
    (scene outer : UMovieScene) (t : Trace) :
  GetMovieScene seq = Some scene ->
  GetTypedOuter_UMovieScene track = Some outer ->
  GetTickResolution outer = GetTickResolution scene ->
  0 < Numerator (GetTickResolution scene) ->
  0 < Denominator (GetTickResolution scene) ->
  run (UUnrealWriterPythonAPI.AddSequenceToSubtrack (Some track) (Some seq)) t =
  inr (tt, t ++ [SubTrack_AddSequenceOnRow track (Some seq) {| Value := 0 |}
                   (DiscreteSize (GetPlaybackRange scene)) INDEX_NONE]).
Proof.
  intros Hs Ho Hsame Hn Hd.
  rewrite (AddSequenceToSubtrack_run track seq scene outer t Hs Ho), Hsame.
  destruct (GetTickResolution scene) as [n d]. simpl in Hn, Hd.
  rewrite ConvertTo_FrameNumber by assumption.
  rewrite (Z.mul_comm d n), Z.div_mul by nia.
  rewrite int32_of_DiscreteSize. reflexivity.
Qed.

Lemma AddSequenceToSubtrack_same_resolution_keeps_length_witness :
  run (UUnrealWriterPythonAPI.AddSequenceToSubtrack
         (Some (Sample.parent_at Sample.ntsc))
         (Some (Sample.child_at Sample.ntsc 1001 1241))) [] =
  inr (tt, [] ++ [SubTrack_AddSequenceOnRow (Sample.parent_at Sample.ntsc)
                    (Some (Sample.child_at Sample.ntsc 1001 1241))
                    {| Value := 0 |}
                    (DiscreteSize
                       (GetPlaybackRange (Sample.scene_at Sample.ntsc 1001 1241)))
                    INDEX_NONE]).
Proof.
  apply (AddSequenceToSubtrack_same_resolution_keeps_length
           (Sample.parent_at Sample.ntsc)
           (Sample.child_at Sample.ntsc 1001 1241)
           (Sample.scene_at Sample.ntsc 1001 1241)
           (Sample.scene_at Sample.ntsc 0 0) []); reflexivity.
Defined.

(** X12.  With tick resolutions given as fractions [n1/d1] (child) and
    [n2/d2] (parent), all of [n1], [d1], [d2] positive, a child of [D]
    ticks is inserted with the duration [q = floor (D * n2 * d1 / (d2 * n1))]
    whenever [q] is an [int32]; [q] never exceeds the exact converted
    length and falls short of it by less than one parent tick. *)
Theorem AddSequenceToSubtrack_duration_fractional_rates
    (track : UMovieSceneSubTrack) (seq : UMovieSceneSequence)
    (scene outer : UMovieScene) (D n1 d1 n2 d2 : Z) (t : Trace) :
  GetMovieScene seq = Some scene ->
  GetTypedOuter_UMovieScene track = Some outer ->
  DiscreteSize (GetPlaybackRange scene) = D ->
  GetTickResolution scene = {| Numerator := n1; Denominator := d1 |} ->
  GetTickResolution outer = {| Numerator := n2; Denominator := d2 |} ->
  0 < n1 -> 0 < d1 -> 0 < d2 ->
  INT32_MIN <= D * (n2 * d1) / (d2 * n1) <= INT32_MAX ->
  run (UUnrealWriterPythonAPI.AddSequenceToSubtrack (Some track) (Some seq)) t =
  inr (tt, t ++ [SubTrack_AddSequenceOnRow track (Some seq) {| Value := 0 |}
                   (D * (n2 * d1) / (d2 * n1)) INDEX_NONE]) /\
  D * (n2 * d1) / (d2 * n1) * (d2 * n1) <= D * (n2 * d1) /\
  D * (n2 * d1) < (D * (n2 * d1) / (d2 * n1) + 1) * (d2 * n1).
Proof.
  intros Hs Ho HD Hr1 Hr2 Hn1 Hd1 Hd2 Hrange.
  assert (Hpos : 0 < d2 * n1) by nia.
  split; [| split].
  - rewrite (AddSequenceToSubtrack_run track seq scene outer t Hs Ho).
    rewrite HD, Hr1, Hr2, ConvertTo_FrameNumber by assumption.
    rewrite int32_of_in_range by exact Hrange. reflexivity.
  - pose proof (Z.mul_div_le (D * (n2 * d1)) (d2 * n1) Hpos). lia.
  - pose proof (Z.mul_succ_div_gt (D * (n2 * d1)) (d2 * n1) Hpos). lia.
Qed.

Lemma AddSequenceToSubtrack_duration_fractional_rates_witness :
  run (UUnrealWriterPythonAPI.AddSequenceToSubtrack
         (Some (Sample.parent_at Sample.film))
         (Some (Sample.child_at Sample.ntsc 0 1000))) [] =
  inr (tt, [] ++ [SubTrack_AddSequenceOnRow (Sample.parent_at Sample.film)
                    (Some (Sample.child_at Sample.ntsc 0 1000))
                    {| Value := 0 |}
                    (1000 * (24000 * 1001) / (1 * 30000)) INDEX_NONE]) /\
  1000 * (24000 * 1001) / (1 * 30000) * (1 * 30000) <= 1000 * (24000 * 1001) /\
  1000 * (24000 * 1001) <
    (1000 * (24000 * 1001) / (1 * 30000) + 1) * (1 * 30000).
Proof.
  apply (AddSequenceToSubtrack_duration_fractional_rates
           (Sample.parent_at Sample.film)
           (Sample.child_at Sample.ntsc 0 1000)
           (Sample.scene_at Sample.ntsc 0 1000)
           (Sample.scene_at Sample.film 0 0) 1000 30000 1001 24000 1 []);
    try reflexivity.
  split; vm_compute; discriminate.
Defined.

Ltac run_step_in H := autorewrite with run in H; cbn beta iota in H.

(** X13.  Whenever [AddSequenceToSubtrack] returns, both references were
    valid and it has sent exactly one request: to the given track, for the
    given sequence, at frame 0 on the free row, with a duration that is an
    [int32], however long the child and whatever the two resolutions. *)
Theorem AddSequenceToSubtrack_returns_after_one_int32_request
    (SubTrack : ptr UMovieSceneSubTrack) (Sequence : ptr UMovieSceneSequence)
    (t t' : Trace) :
  run (UUnrealWriterPythonAPI.AddSequenceToSubtrack SubTrack Sequence) t =
    inr (tt, t') ->
  exists (track : UMovieSceneSubTrack) (seq : UMovieSceneSequence)
         (Duration : Z),
    SubTrack = Some track /\ Sequence = Some seq /\
    t' = t ++ [SubTrack_AddSequenceOnRow track Sequence {| Value := 0 |}
                 Duration INDEX_NONE] /\
    INT32_MIN <= Duration <= INT32_MAX.
Proof.
  intros H.
  destruct Sequence as [seq |]; [| discriminate H].
  destruct (GetMovieScene seq) as [scene |] eqn:Hs.
  2:{ unfold UUnrealWriterPythonAPI.AddSequenceToSubtrack in H.
      run_step_in H. rewrite Hs in H. discriminate H. }
  destruct SubTrack as [track |].
  2:{ unfold UUnrealWriterPythonAPI.AddSequenceToSubtrack in H.
      run_step_in H. rewrite Hs in H. run_step_in H. rewrite Hs in H.
      discriminate H. }
  destruct (GetTypedOuter_UMovieScene track) as [outer |] eqn:Ho.
  2:{ unfold UUnrealWriterPythonAPI.AddSequenceToSubtrack in H.
      run_step_in H. rewrite Hs in H. run_step_in H. rewrite Hs in H.
      run_step_in H. rewrite Ho in H. discriminate H. }
  rewrite (AddSequenceToSubtrack_run track seq scene outer t Hs Ho) in H.
  injection H as <-.
  eexists track, seq, _. repeat split; try reflexivity; apply int32_of_range.
Qed.

Lemma AddSequenceToSubtrack_returns_after_one_int32_request_witness :
  exists (track : UMovieSceneSubTrack) (seq : UMovieSceneSequence)
         (Duration : Z),
    Some (Sample.parent 60000) = Some track /\
    Some (Sample.child 24000 2000000000) = Some seq /\
    [SubTrack_AddSequenceOnRow (Sample.parent 60000)
       (Some (Sample.child 24000 2000000000)) {| Value := 0 |}
       705032704 INDEX_NONE] =
    [] ++ [SubTrack_AddSequenceOnRow track
             (Some (Sample.child 24000 2000000000)) {| Value := 0 |}
             Duration INDEX_NONE] /\
    INT32_MIN <= Duration <= INT32_MAX.
Proof.
  apply (AddSequenceToSubtrack_returns_after_one_int32_request
           (Some (Sample.parent 60000))
           (Some (Sample.child 24000 2000000000)) []).
  reflexivity.
Defined.

(** X14.  A child whose playback range is empty (upper bound equal to the
    lower bound) is not skipped: it is inserted at frame 0 with duration
    0, for all positive tick resolutions. *)
Theorem AddSequenceToSubtrack_empty_range_inserted
    (track : UMovieSceneSubTrack) (seq : UMovieSceneSequence)
    (scene outer : UMovieScene) (t : Trace) :
  GetMovieScene seq = Some scene ->
  GetTypedOuter_UMovieScene track = Some outer ->
  Value (UpperBound (GetPlaybackRange scene)) =
  Value (LowerBound (GetPlaybackRange scene)) ->
  0 < Numerator (GetTickResolution scene) ->
  0 < Denominator (GetTickResolution scene) ->
  0 < Denominator (GetTickResolution outer) ->
  run (UUnrealWriterPythonAPI.AddSequenceToSubtrack (Some track) (Some seq)) t =
  inr (tt, t ++ [SubTrack_AddSequenceOnRow track (Some seq) {| Value := 0 |}
                   0 INDEX_NONE]).
Proof.
  intros Hs Ho Hempty Hn1 Hd1 Hd2.
  rewrite (AddSequenceToSubtrack_run track seq scene outer t Hs Ho).
  assert (HD : DiscreteSize (GetPlaybackRange scene) = 0).
  { unfold DiscreteSize. rewrite Hempty, Z.sub_diag. reflexivity. }
  rewrite HD.
  destruct (GetTickResolution scene) as [n1 d1].
  destruct (GetTickResolution outer) as [n2 d2]. simpl in Hn1, Hd1, Hd2.
  rewrite ConvertTo_FrameNumber by assumption.
  rewrite Z.mul_0_l, Z.div_0_l by nia. reflexivity.
Qed.

Lemma AddSequenceToSubtrack_empty_range_inserted_witness :
  run (UUnrealWriterPythonAPI.AddSequenceToSubtrack
         (Some (Sample.parent_at Sample.film))
         (Some (Sample.child_at Sample.ntsc 86400 86400))) [] =
  inr (tt, [] ++ [SubTrack_AddSequenceOnRow (Sample.parent_at Sample.film)
                    (Some (Sample.child_at Sample.ntsc 86400 86400))
                    {| Value := 0 |} 0 INDEX_NONE]).
Proof.
  apply (AddSequenceToSubtrack_empty_range_inserted
           (Sample.parent_at Sample.film)
           (Sample.child_at Sample.ntsc 86400 86400)
           (Sample.scene_at Sample.ntsc 86400 86400)
           (Sample.scene_at Sample.film 0 0) []); reflexivity.
Defined.

(** ** Functions that only add requests *)

Section Sends.

Import Requests.

Context {A B : Type}.
Variable P : HostCall -> bool.







End Sends.




